(** * echozap: the zap access-log middleware for echo

    A shallow embedding of [logger.go] (package [echozap]) and the proofs of
    its behavioural contract.

    The middleware is a decorator over a request handler.  The handler it
    produces runs in a small monad [M] that threads the state of the program
    (the request context and the wall clock are read from it), may panic,
    and records the calls the decorator itself makes on its collaborators:
    the skip predicate, [time.Now], [next], [c.Error], [time.Since] and the
    leveled methods of the zap logger.  A handler is taken to end, by
    returning or by panicking.

    What is outside the repository is taken as an interface:
    - [echo.Context] is a type class over the state of the program: what the
      context of the request reads in a state, and what [c.Error] makes of
      one;
    - the wall clock and [time.Duration.String] are type classes as well;
    - a zap field constructor is a constructor of [zap.Field], and a log
      entry is what a leveled method of a logger is called with (level
      filtering and encoding are zap's business, not the middleware's). *)

From stdpp Require Import strings pretty gmap list.

Local Open Scope Z_scope.
Local Open Scope string_scope.
Local Open Scope list_scope.

(** ** Go values *)

(** A non-nil value of Go's [error] interface. *)
Inductive error_value : Type :=
| errors_New (text : string).

(** Go's [error]: [None] is [nil]. *)
Definition error : Type := option error_value.

(** ** net/http *)

Module http.

(** [http.Header] is [map[string][]string]. *)
Record Request : Type := {
  Method : string;
  RequestURI : string;
  Host : string;
  Header : gmap string (list string);
}.

(** [Header.Get]: the first value stored under the key, [""] when there is
    none.  The two keys the middleware asks for, ["X-Request-Id"] and
    ["User-Agent"], are in canonical form already, so the canonicalisation
    [Get] applies to its argument leaves them as they are. *)
Definition Header_Get (h : gmap string (list string)) (key : string) : string :=
  match h !! key with
  | Some (v :: _) => v
  | _ => ""
  end.

(** [Request.UserAgent]. *)
Definition UserAgent (r : Request) : string :=
  Header_Get (Header r) "User-Agent".

End http.

(** ** time *)

Module time.

(** Instants, in nanoseconds, and durations, [int64] counts of
    nanoseconds. *)
Definition Time : Type := Z.
Definition Duration : Type := Z.

Definition minDuration : Duration := - 2 ^ 63.
Definition maxDuration : Duration := 2 ^ 63 - 1.

(** [t.Sub(u)]: the difference, or the closest duration when the difference
    is none. *)
Definition Sub (t u : Time) : Duration :=
  if decide (t - u < minDuration) then minDuration
  else if decide (maxDuration < t - u) then maxDuration
  else t - u.

(** The wall clock: [time.Now()] in a state of the program.  Time passes
    when the state changes; the statements of the middleware itself are
    given no duration. *)
Class Clock (W : Type) : Type := {
  Now : W -> Time;
}.

(** The methods of [time.Duration] the middleware calls: [String], the
    rendering of a duration. *)
Class DurationMethods : Type := {
  Duration_String : Duration -> string;
}.

End time.

(** ** echo *)

Module echo.

Definition HeaderXRequestID : string := "X-Request-Id".

(** [echo.Response]: what the middleware reads of it. *)
Record Response : Type := {
  Status : Z;
  Size : Z;
  Header : gmap string (list string);
}.

(** The part of the [echo.Context] interface the middleware consumes, over
    the states [W] of the program: the request, the response and the address
    of the client as the context has them in a state, and [c.Error(err)],
    which hands the error to the HTTP error handler of the framework; the
    handler typically writes the response. *)
Class Context (W : Type) : Type := {
  Context_Request : W -> http.Request;
  Context_Response : W -> Response;
  Context_RealIP : W -> string;
  Context_Error : error_value -> W -> W;
}.

End echo.

(** ** zap *)

Module zap.

(** The field constructors the middleware uses, as calls: [Error] is
    [zap.Error(err)], called with whatever [next] returned, [nil] included.
    What zap writes for a field is zap's business. *)
Inductive Field : Type :=
| String (key val : string)
| Int (key : string) (val : Z)
| Int64 (key : string) (val : Z)
| Error (err : error).

Definition key (f : Field) : string :=
  match f with
  | String k _ | Int k _ | Int64 k _ => k
  | Error _ => "error"
  end.

Inductive Level : Type :=
| InfoLevel
| WarnLevel
| ErrorLevel.

(** A logger is known by the fields attached to it. *)
Record Logger : Type := {
  context : list Field;
}.

(** [log.With(fields...)]: a child logger carrying the extra fields. *)
Definition With (log : Logger) (fs : list Field) : Logger :=
  {| context := context log ++ fs |}.

(** One call of a leveled method: [logger.Info(msg, fields...)] and the
    like. *)
Record Entry : Type := {
  logger : Logger;
  level : Level;
  message : string;
  fields : list Field;
}.

End zap.

(** ** Running a handler *)

(** How a call ends: it returns a value or it panics. *)
Inductive Outcome (A : Type) : Type :=
| Returned (a : A)
| Panicked (reason : string).
Arguments Returned {A} a.
Arguments Panicked {A} reason.

(** The calls a handler makes, in order.  [EvNext] keeps what the callee did
    in turn, so that the calls of one layer are never mixed up with those of
    the layers below it. *)
#[local] Unset Elimination Schemes.
Inductive Event : Type :=
| EvSkipper (skip : bool)
| EvNow (t : time.Time)
| EvNext (inner : list Event) (result : Outcome error)
| EvError (err : error_value)
| EvRequest
| EvResponse
| EvRealIP
| EvSince (start : time.Time) (d : time.Duration)
| EvLog (entry : zap.Entry).
#[local] Set Elimination Schemes.

(** A run from a state of the program: how it ended, the state it left
    and the calls it made. *)
Record Run (W A : Type) : Type := MkRun {
  outcome : Outcome A;
  world : W;
  trace : list Event;
}.
Arguments MkRun {W A} outcome world trace.
Arguments outcome {W A} _.
Arguments world {W A} _.
Arguments trace {W A} _.

(** Computations over the state that may panic and that log their calls. *)
Definition M (W A : Type) : Type := W -> Run W A.

Definition ret {W A : Type} (a : A) : M W A :=
  fun w => MkRun (Returned a) w [].

Definition bind {W A B : Type} (m : M W A) (k : A -> M W B) : M W B :=
  fun w =>
    match m w with
    | MkRun (Returned a) w1 t1 =>
        let 'MkRun result w2 t2 := k a w1 in
        MkRun result w2 (t1 ++ t2)
    | MkRun (Panicked reason) w1 t1 => MkRun (Panicked reason) w1 t1
    end.

Definition panic {W A : Type} (reason : string) : M W A :=
  fun w => MkRun (Panicked reason) w [].

#[global] Instance M_ret (W : Type) : MRet (M W) := @ret W.
#[global] Instance M_bind (W : Type) : MBind (M W) :=
  fun A B k m => bind m k.

(** [echo.HandlerFunc], [func(c echo.Context) error]: the context is the one
    of the state the handler runs in. *)
Definition HandlerFunc (W : Type) : Type := M W error.

(** [echo.MiddlewareFunc], [func(next HandlerFunc) HandlerFunc]. *)
Definition MiddlewareFunc (W : Type) : Type := HandlerFunc W -> HandlerFunc W.

(** [Skipper] of [logger.go], [func(c echo.Context) bool]: it answers, and
    may have written to the context while doing so. *)
Definition Skipper (W : Type) : Type := W -> bool * W.

(** [ZapLoggerConfig] defines the config for the ZapLogger middleware.  A
    nil [Skipper] is [None]. *)
Record ZapLoggerConfig (W : Type) : Type := {
  config_Skipper : option (Skipper W);
  IncludeRequestLogMessage : bool;
}.
Arguments config_Skipper {W} _.
Arguments IncludeRequestLogMessage {W} _.

Section Middleware.

(** The states of the program, with the context of the request and the
    clock. *)
Context {W : Type} `{!echo.Context W} `{!time.Clock W}.
Context `{!time.DurationMethods}.

(** ** The calls of the middleware *)

(** Calling a function value of type [Skipper]; a nil one ([None]) panics. *)
Definition call_Skipper (f : option (Skipper W)) : M W bool :=
  match f with
  | None => panic "invalid memory address or nil pointer dereference"
  | Some skipper =>
      fun w =>
        let (skip, w') := skipper w in
        MkRun (Returned skip) w' [EvSkipper skip]
  end.

(** [next(c)]: the callee's run, logged as one call. *)
Definition call_next (next : HandlerFunc W) : M W error :=
  fun w =>
    let 'MkRun result w' inner := next w in
    MkRun result w' [EvNext inner result].

(** [time.Now()]. *)
Definition time_Now : M W time.Time :=
  fun w => MkRun (Returned (time.Now w)) w [EvNow (time.Now w)].

(** [time.Since(start)], that is [time.Now().Sub(start)]. *)
Definition time_Since (start : time.Time) : M W time.Duration :=
  fun w =>
    let d := time.Sub (time.Now w) start in
    MkRun (Returned d) w [EvSince start d].

(** [c.Error(err)]. *)
Definition c_Error (err : error_value) : M W unit :=
  fun w =>
    MkRun (Returned tt) (echo.Context_Error err w) [EvError err].

(** [c.Request()], [c.Response()] and [c.RealIP()] read the context. *)
Definition c_Request : M W http.Request :=
  fun w => MkRun (Returned (echo.Context_Request w)) w [EvRequest].

Definition c_Response : M W echo.Response :=
  fun w => MkRun (Returned (echo.Context_Response w)) w [EvResponse].

Definition c_RealIP : M W string :=
  fun w => MkRun (Returned (echo.Context_RealIP w)) w [EvRealIP].

(** The leveled methods of [*zap.Logger]. *)
Definition Logger_log (lvl : zap.Level) (log : zap.Logger) (msg : string)
    (fields : list zap.Field) : M W unit :=
  fun w =>
    MkRun (Returned tt) w
      [EvLog {| zap.logger := log; zap.level := lvl;
                zap.message := msg; zap.fields := fields |}].

Definition Logger_Info : zap.Logger -> string -> list zap.Field -> M W unit :=
  Logger_log zap.InfoLevel.

Definition Logger_Warn : zap.Logger -> string -> list zap.Field -> M W unit :=
  Logger_log zap.WarnLevel.

Definition Logger_Error : zap.Logger -> string -> list zap.Field -> M W unit :=
  Logger_log zap.ErrorLevel.

(** [fmt.Sprintf("%s %s", a, b)]. *)
Definition Sprintf_s_s (a b : string) : string := a +:+ " " +:+ b.

(** ** logger.go *)

(** [DefaultSkipper] returns false, which processes the middleware. *)
Definition DefaultSkipper : Skipper W := fun w => (false, w).

(** [DefaultZapLoggerConfig] is the default ZapLogger middleware config (the
    package variable, at the value it is declared with). *)
Definition DefaultZapLoggerConfig : ZapLoggerConfig W :=
  {| config_Skipper := Some DefaultSkipper;
     IncludeRequestLogMessage := false |}.

(** [ZapLoggerWithConfig]: the outer [fun next] is the middleware, the
    [let config] its "Defaults" block, run once per [next]; what follows is
    the handler it returns, run once per request. *)
Definition ZapLoggerWithConfig (log : zap.Logger) (config : ZapLoggerConfig W)
    : MiddlewareFunc W :=
  fun next =>
    let config :=
      match config_Skipper config with
      | None =>
          {| config_Skipper := config_Skipper DefaultZapLoggerConfig;
             IncludeRequestLogMessage := IncludeRequestLogMessage config |}
      | Some _ => config
      end in
    (skip ← call_Skipper (config_Skipper config);
     if (skip : bool) then call_next next
     else
       start ← time_Now;
       err ← call_next next;
       match err with
       | Some e => c_Error e
       | None => ret tt
       end;;
       req ← c_Request;
       res ← c_Response;
       let requestLogField :=
         Sprintf_s_s (http.Method req) (http.RequestURI req) in
       remote_ip ← c_RealIP;
       latency ← time_Since start;
       let fields :=
         [ zap.String "remote_ip" remote_ip;
           zap.String "latency" (time.Duration_String latency);
           zap.String "host" (http.Host req);
           zap.String "request" requestLogField;
           zap.Int "status" (echo.Status res);
           zap.Int64 "size" (echo.Size res);
           zap.String "user_agent" (http.UserAgent req) ] in
       let id := http.Header_Get (http.Header req) echo.HeaderXRequestID in
       let id :=
         if decide (id = "")
         then http.Header_Get (echo.Header res) echo.HeaderXRequestID
         else id in
       let fields := fields ++ [zap.String "request_id" id] in
       let requestLogMessage :=
         if IncludeRequestLogMessage config
         then ": " +:+ requestLogField
         else "" in
       let n := echo.Status res in
       (if decide (n >= 500)
        then Logger_Error (zap.With log [zap.Error err])
               ("Server error" +:+ requestLogMessage) fields
        else if decide (n >= 400)
        then Logger_Warn (zap.With log [zap.Error err])
               ("Client error" +:+ requestLogMessage) fields
        else if decide (n >= 300)
        then Logger_Info log ("Redirection" +:+ requestLogMessage) fields
        else Logger_Info log ("Success" +:+ requestLogMessage) fields);;
       ret None) : M W error.

(** [ZapLogger] is a middleware and zap to provide an "access log" like
    logging for each request. *)
Definition ZapLogger (log : zap.Logger) : MiddlewareFunc W :=
  ZapLoggerWithConfig log DefaultZapLoggerConfig.

End Middleware.

(** ** Reading a trace *)

(** The results of the calls of [next], in order. *)
Definition next_calls (t : list Event) : list (Outcome error) :=
  omap (fun ev => match ev with EvNext _ r => Some r | _ => None end) t.

(** The errors handed to [c.Error], in order. *)
Definition reported (t : list Event) : list error_value :=
  omap (fun ev => match ev with EvError e => Some e | _ => None end) t.

(** The log entries emitted, in order. *)
Definition entries (t : list Event) : list zap.Entry :=
  omap (fun ev => match ev with EvLog e => Some e | _ => None end) t.

(** The readings of the clock: [time.Now] and [time.Since]. *)
Definition clock_reads (t : list Event) : list Event :=
  omap (fun ev => match ev with
                  | EvNow _ | EvSince _ _ => Some ev
                  | _ => None
                  end) t.

(** The readings of the context the fields are built from: [c.Request],
    [c.Response] and [c.RealIP]. *)
Definition context_reads (t : list Event) : list Event :=
  omap (fun ev => match ev with
                  | EvRequest | EvResponse | EvRealIP => Some ev
                  | _ => None
                  end) t.

(** The state in which the log entry is built: the one [next] left, after
    [c.Error] when [next] returned an error. *)
Definition after_next {W : Type} `{!echo.Context W} (err : error) (w : W)
    : W :=
  match err with
  | Some e => echo.Context_Error e w
  | None => w
  end.

(** ** The words of the specification *)

(** The table of severity and base message by status range: 500 and above,
    400 to 499, 300 to 399, anything else. *)
Definition classification (status : Z) : zap.Level * string :=
  if decide (500 <= status) then (zap.ErrorLevel, "Server error")
  else if decide (400 <= status <= 499) then (zap.WarnLevel, "Client error")
  else if decide (300 <= status <= 399) then (zap.InfoLevel, "Redirection")
  else (zap.InfoLevel, "Success").

(** The correlation id: the first non-empty of the inbound and the outbound
    header. *)
Definition first_non_empty (inbound outbound : string) : string :=
  if decide (inbound = "") then outbound else inbound.

(** ** A context to run the middleware on *)

(** A state that is the request, the response and the address of the peer
    as the context has them, with the time of the clock.  Its HTTP error
    handler answers 500, as echo's default handler does for an error that is
    not an [*echo.HTTPError], keeps what it was given and takes 40ns. *)
Record PlainWorld : Type := {
  plain_request : http.Request;
  plain_response : echo.Response;
  plain_peer : string;
  plain_handled : list error_value;
  plain_clock : time.Time;
}.

#[global] Instance PlainWorld_Context : echo.Context PlainWorld := {|
  echo.Context_Request := plain_request;
  echo.Context_Response := plain_response;
  echo.Context_RealIP := plain_peer;
  echo.Context_Error e w :=
    {| plain_request := plain_request w;
       plain_response :=
         {| echo.Status := 500;
            echo.Size := echo.Size (plain_response w);
            echo.Header := echo.Header (plain_response w) |};
       plain_peer := plain_peer w;
       plain_handled := plain_handled w ++ [e];
       plain_clock := plain_clock w + 40 |};
|}.

#[global] Instance PlainWorld_Clock : time.Clock PlainWorld := {|
  time.Now := plain_clock;
|}.

(** Durations rendered as a count of nanoseconds. *)
#[global] Instance nanoseconds : time.DurationMethods := {|
  time.Duration_String d := pretty d +:+ "ns";
|}.

Definition get_foo (id : list string) : http.Request :=
  {| http.Method := "GET";
     http.RequestURI := "/foo";
     http.Host := "example.org";
     http.Header := {[ "User-Agent" := ["curl/8.5.0"] ]} ∪
                    (if id is [] then ∅ else {[ "X-Request-Id" := id ]}) |}.

(** A request under way: nothing written yet. *)
Definition arriving (req : http.Request) : PlainWorld :=
  {| plain_request := req;
     plain_response :=
       {| echo.Status := 0; echo.Size := 0; echo.Header := ∅ |};
     plain_peer := "192.0.2.7";
     plain_handled := [];
     plain_clock := 1000 |}.

(** A handler that answers with [status] and [size] bytes in 250ns, sets the
    response headers it is given and returns [err]. *)
Definition answer (status size : Z) (hdr : gmap string (list string))
    (err : error) : HandlerFunc PlainWorld :=
  fun w =>
    MkRun (Returned err)
      {| plain_request := plain_request w;
         plain_response :=
           {| echo.Status := status;
              echo.Size := size;
              echo.Header := hdr |};
         plain_peer := plain_peer w;
         plain_handled := plain_handled w;
         plain_clock := plain_clock w + 250 |}
      [].

(** A skipper for health checks. *)
Definition skip_healthz : Skipper PlainWorld :=
  fun w => (bool_decide (http.RequestURI (plain_request w) = "/healthz"), w).

Definition healthz : http.Request :=
  {| http.Method := "GET";
     http.RequestURI := "/healthz";
     http.Host := "example.org";
     http.Header := ∅ |}.

Definition root_logger : zap.Logger := {| zap.context := [] |}.

(** Log everything but the health checks, without and with the summary of
    the request in the message; and a configuration that leaves the skipper
    nil. *)
Definition but_healthz : ZapLoggerConfig PlainWorld :=
  {| config_Skipper := Some skip_healthz;
     IncludeRequestLogMessage := false |}.

Definition but_healthz_summary : ZapLoggerConfig PlainWorld :=
  {| config_Skipper := Some skip_healthz;
     IncludeRequestLogMessage := true |}.

Definition nil_skipper : ZapLoggerConfig PlainWorld :=
  {| config_Skipper := None;
     IncludeRequestLogMessage := false |}.

Definition boom : error_value := errors_New "boom".

(** A handler that panics after 10ns, the response untouched. *)
Definition crash : HandlerFunc PlainWorld :=
  fun w =>
    MkRun (Panicked "runtime error: index out of range")
      {| plain_request := plain_request w;
         plain_response := plain_response w;
         plain_peer := plain_peer w;
         plain_handled := plain_handled w;
         plain_clock := plain_clock w + 10 |}
      [].

(** * The contract of the middleware *)

Section Contract.

Context {W : Type} `{!echo.Context W} `{!time.Clock W}.
Context `{!time.DurationMethods}.

Implicit Types (log : zap.Logger) (config : ZapLoggerConfig W).
Implicit Types (next : HandlerFunc W) (skipper : Skipper W).
Implicit Types (w : W) (err : error).

(** ** Running the handler *)

(** The steps of a run: the layers of the monad and the calls, and nothing
    of the strings and maps the handler reads. *)
Ltac step_run :=
  cbv beta iota zeta delta
    [ZapLogger ZapLoggerWithConfig DefaultZapLoggerConfig DefaultSkipper
     mbind M_bind mret M_ret bind ret panic call_Skipper call_next time_Now
     time_Since c_Error c_Request c_Response c_RealIP Logger_Error
     Logger_Warn Logger_Info Logger_log Sprintf_s_s after_next outcome world
     trace config_Skipper IncludeRequestLogMessage app
     classification first_non_empty fst snd].

(** A run under a skipper that is not nil: commit to its answer. *)
Ltac run_with Hskipper Hanswer :=
  match type of Hskipper with
  | config_Skipper ?config = Some _ =>
      destruct config as [? include]; cbn in Hskipper; subst;
      step_run; rewrite Hanswer; step_run
  end.

(** A skipped request is handed to [next] and nothing else is done. *)
Lemma run_skipped log config next skipper w w1 :
  config_Skipper config = Some skipper ->
  skipper w = (true, w1) ->
  ZapLoggerWithConfig log config next w =
    MkRun (outcome (next w1)) (world (next w1))
      [EvSkipper true; EvNext (trace (next w1)) (outcome (next w1))].
Proof.
  intros Hskipper Hanswer. run_with Hskipper Hanswer.
  by destruct (next w1).
Qed.

(** A request that is not skipped, once [next] has returned: the calls made,
    the state left and the one entry emitted. *)
Lemma run_logged log config next skipper w w1 err :
  config_Skipper config = Some skipper ->
  skipper w = (false, w1) ->
  outcome (next w1) = Returned err ->
  let w2 := world (next w1) in
  let w3 := after_next err w2 in
  let req := echo.Context_Request w3 in
  let res := echo.Context_Response w3 in
  exists entry,
    ZapLoggerWithConfig log config next w =
      MkRun (Returned None) w3
        ([EvSkipper false; EvNow (time.Now w1);
          EvNext (trace (next w1)) (Returned err)]
         ++ match err with Some e => [EvError e] | None => [] end
         ++ [EvRequest; EvResponse; EvRealIP;
             EvSince (time.Now w1) (time.Sub (time.Now w3) (time.Now w1));
             EvLog entry])
    /\ zap.logger entry =
         (if decide (400 <= echo.Status res)
          then zap.With log [zap.Error err] else log)
    /\ zap.level entry = (classification (echo.Status res)).1
    /\ zap.message entry =
         (classification (echo.Status res)).2 +:+
         (if IncludeRequestLogMessage config
          then ": " +:+ http.Method req +:+ " " +:+ http.RequestURI req
          else "")
    /\ zap.fields entry =
         [ zap.String "remote_ip" (echo.Context_RealIP w3);
           zap.String "latency"
             (time.Duration_String (time.Sub (time.Now w3) (time.Now w1)));
           zap.String "host" (http.Host req);
           zap.String "request"
             (http.Method req +:+ " " +:+ http.RequestURI req);
           zap.Int "status" (echo.Status res);
           zap.Int64 "size" (echo.Size res);
           zap.String "user_agent" (http.UserAgent req);
           zap.String "request_id"
             (first_non_empty
                (http.Header_Get (http.Header req) echo.HeaderXRequestID)
                (http.Header_Get (echo.Header res) echo.HeaderXRequestID)) ].
Proof.
  intros Hskipper Hanswer Hnext w2 w3 req res.
  subst w2 w3 req res.
  run_with Hskipper Hanswer.
  destruct (next w1) as [result w2 inner]; cbn in Hnext; subst result.
  destruct err as [e|]; step_run.
  all: repeat case_decide; try lia; step_run.
  all: destruct include; eexists; repeat split; reflexivity.
Qed.

(** A panic of [next] goes through the handler as it is. *)
Lemma run_panicked log config next skipper w w1 skip reason :
  config_Skipper config = Some skipper ->
  skipper w = (skip, w1) ->
  outcome (next w1) = Panicked reason ->
  ZapLoggerWithConfig log config next w =
    MkRun (Panicked reason) (world (next w1))
      (EvSkipper skip
       :: (if skip then [] else [EvNow (time.Now w1)])
       ++ [EvNext (trace (next w1)) (Panicked reason)]).
Proof.
  intros Hskipper Hanswer Hnext.
  destruct skip.
  - rewrite (run_skipped _ _ _ _ _ _ Hskipper Hanswer), Hnext. done.
  - run_with Hskipper Hanswer.
    destruct (next w1) as [result w2 inner]; cbn in Hnext; subst result.
    by step_run.
Qed.

(** The "Defaults" block: a nil [Skipper] stands for [DefaultSkipper], for
    every [next] the middleware is applied to. *)
Lemma nil_Skipper_defaults log config next :
  ZapLoggerWithConfig log config next =
  ZapLoggerWithConfig log
    {| config_Skipper :=
         Some (default DefaultSkipper (config_Skipper config));
       IncludeRequestLogMessage := IncludeRequestLogMessage config |}
    next.
Proof. by destruct config as [[skipper|] include]. Qed.

Lemma append_empty_r (s : string) : s +:+ "" = s.
Proof.
  induction s as [|a s IH]; [done|].
  change (String a (s +:+ "") = String a s). by rewrite IH.
Qed.

(** ** The claims *)

(** C1 (amended).  For every configuration and every handler [next], the
    handler produced by [ZapLoggerWithConfig] calls [next] exactly once per
    request, in the state the skip predicate left.  When the predicate
    answers true, what [next] returns (or its panic) goes through unchanged
    and [c.Error] is not called.  When it answers false and [next] returns,
    the handler returns nil, whatever [next] returned, after handing a
    non-nil error to [c.Error], and it leaves the context as [next] and
    [c.Error] left it. *)
Theorem next_once_error_reported log config next w :
  let skipper := default DefaultSkipper (config_Skipper config) in
  let r := ZapLoggerWithConfig log config next w in
  let called := next (skipper w).2 in
  next_calls (trace r) = [outcome called]
  /\ ((skipper w).1 = true ->
      outcome r = outcome called /\ reported (trace r) = []
      /\ world r = world called)
  /\ ((skipper w).1 = false ->
      forall err, outcome called = Returned err ->
      outcome r = Returned None
      /\ reported (trace r) = option_list err
      /\ world r = after_next err (world called)).
Proof.
  intros skipper r called. subst r called.
  rewrite nil_Skipper_defaults. fold skipper.
  set (config' := Build_ZapLoggerConfig W (Some skipper) _).
  assert (config_Skipper config' = Some skipper) as Hskipper by done.
  destruct (skipper w) as [skip w1] eqn:Hanswer. cbn [fst snd].
  destruct skip.
  - rewrite (run_skipped log config' next skipper w w1 Hskipper Hanswer).
    by repeat split.
  - destruct (outcome (next w1)) as [err|reason] eqn:Hnext.
    + destruct (run_logged log config' next skipper w w1 err
                  Hskipper Hanswer Hnext) as (entry & -> & _).
      split; [by destruct err|]. split; [done|].
      intros _ err' [= <-]. by destruct err.
    + rewrite (run_panicked log config' next skipper w w1 false reason
                 Hskipper Hanswer Hnext).
      by repeat split.
Qed.

(** C2.  For a request that is not skipped: when [next] returns a non-nil
    error, the handler returns nil and [c.Error] is called exactly once, with
    that error, on the context [next] left; when [next] returns nil,
    [c.Error] is not called and the context is as [next] left it. *)
Theorem error_reported_once_nil_returned log config next skipper w w1 err :
  config_Skipper config = Some skipper ->
  skipper w = (false, w1) ->
  outcome (next w1) = Returned err ->
  let r := ZapLoggerWithConfig log config next w in
  outcome r = Returned None
  /\ (forall e, err = Some e ->
      reported (trace r) = [e]
      /\ world r = echo.Context_Error e (world (next w1)))
  /\ (err = None -> reported (trace r) = [] /\ world r = world (next w1)).
Proof.
  intros Hskipper Hanswer Hnext r. subst r.
  destruct (run_logged log _ next skipper w w1 err Hskipper Hanswer Hnext)
    as (entry & -> & _).
  split; [done|]. split.
  - by intros e ->.
  - by intros ->.
Qed.

(** C5.  For a request the skip predicate answers true for, the handler is a
    pass-through: it evaluates the predicate first, calls [next] once, in
    the state the predicate left, and ends as [next] ends, with the result
    and the state of [next]; it reads no clock, reads nothing of the context
    to build fields from, emits no entry and does not call [c.Error],
    whatever [next] returns. *)
Theorem skipped_is_pass_through log config next skipper w w1 :
  config_Skipper config = Some skipper ->
  skipper w = (true, w1) ->
  let r := ZapLoggerWithConfig log config next w in
  outcome r = outcome (next w1)
  /\ world r = world (next w1)
  /\ trace r = [EvSkipper true; EvNext (trace (next w1)) (outcome (next w1))]
  /\ next_calls (trace r) = [outcome (next w1)]
  /\ clock_reads (trace r) = []
  /\ context_reads (trace r) = []
  /\ entries (trace r) = []
  /\ reported (trace r) = [].
Proof.
  intros Hskipper Hanswer r. subst r.
  rewrite (run_skipped log config next skipper w w1 Hskipper Hanswer).
  by repeat split.
Qed.

(** C3.  For a request that is not skipped, the severity and the base
    message of the entry are a function of the response status alone,
    whatever [next] returned: [classification], the table of the
    specification.  500 and above is error, "Server error"; 400 to 499 is
    warning, "Client error"; 300 to 399 is info, "Redirection"; any other
    status, zero and negative ones included, is info, "Success".  The
    message is the base message followed by the summary of the request when
    the configuration asks for it. *)
Theorem severity_by_status log config next skipper w w1 err :
  config_Skipper config = Some skipper ->
  skipper w = (false, w1) ->
  outcome (next w1) = Returned err ->
  let r := ZapLoggerWithConfig log config next w in
  let w3 := after_next err (world (next w1)) in
  let req := echo.Context_Request w3 in
  let n := echo.Status (echo.Context_Response w3) in
  let summary :=
    if IncludeRequestLogMessage config
    then ": " +:+ http.Method req +:+ " " +:+ http.RequestURI req
    else "" in
  exists entry,
    entries (trace r) = [entry]
    /\ zap.level entry = (classification n).1
    /\ zap.message entry = (classification n).2 +:+ summary
    /\ (n >= 500 ->
        zap.level entry = zap.ErrorLevel
        /\ zap.message entry = "Server error" +:+ summary)
    /\ (400 <= n <= 499 ->
        zap.level entry = zap.WarnLevel
        /\ zap.message entry = "Client error" +:+ summary)
    /\ (300 <= n <= 399 ->
        zap.level entry = zap.InfoLevel
        /\ zap.message entry = "Redirection" +:+ summary)
    /\ (n <= 299 ->
        zap.level entry = zap.InfoLevel
        /\ zap.message entry = "Success" +:+ summary).
Proof.
  intros Hskipper Hanswer Hnext r w3 req n summary.
  destruct (run_logged log _ next skipper w w1 err Hskipper Hanswer Hnext)
    as (entry & Hrun & _ & Hlevel & Hmessage & _).
  fold w3 req n summary in Hrun, Hlevel, Hmessage.
  exists entry. subst r. rewrite Hrun, Hlevel, Hmessage.
  split; [by destruct err|]. do 2 (split; [done|]).
  unfold classification.
  repeat split; intros; repeat case_decide; done || lia.
Qed.

(** C4.  For a request that is not skipped, the [request_id] field, the last
    one, is resolved in the state [next] (and [c.Error]) left, the first
    non-empty winning: the [X-Request-Id] header of the request when it is
    not empty, the [X-Request-Id] header of the response otherwise, so the
    empty string when both are absent or empty. *)
Theorem request_id_first_non_empty log config next skipper w w1 err :
  config_Skipper config = Some skipper ->
  skipper w = (false, w1) ->
  outcome (next w1) = Returned err ->
  let r := ZapLoggerWithConfig log config next w in
  let w3 := after_next err (world (next w1)) in
  let inbound := http.Header (echo.Context_Request w3) in
  let outbound := echo.Header (echo.Context_Response w3) in
  exists entry id,
    entries (trace r) = [entry]
    /\ last (zap.fields entry) = Some (zap.String "request_id" id)
    /\ id = first_non_empty (http.Header_Get inbound "X-Request-Id")
              (http.Header_Get outbound "X-Request-Id")
    /\ (http.Header_Get inbound "X-Request-Id" <> "" ->
        id = http.Header_Get inbound "X-Request-Id")
    /\ (http.Header_Get inbound "X-Request-Id" = "" ->
        id = http.Header_Get outbound "X-Request-Id")
    /\ (inbound !! "X-Request-Id" = None ->
        outbound !! "X-Request-Id" = None ->
        id = "").
Proof.
  intros Hskipper Hanswer Hnext r w3 inbound outbound.
  destruct (run_logged log _ next skipper w w1 err Hskipper Hanswer Hnext)
    as (entry & Hrun & _ & _ & _ & Hfields).
  fold w3 in Hrun, Hfields. fold inbound outbound in Hfields.
  unfold echo.HeaderXRequestID in Hfields.
  exists entry. eexists. subst r. rewrite Hrun, Hfields.
  split; [by destruct err|]. do 2 (split; [done|]).
  unfold first_non_empty.
  repeat split; [by intros; case_decide..|].
  unfold http.Header_Get. intros -> ->. by case_decide.
Qed.

(** C6 (amended).  For a request that is not skipped and whose [next]
    returns, exactly one entry is emitted; its fields are, in this order,
    remote_ip, latency, host, request, status, size, user_agent and, last,
    request_id; the request field is the method and the URI of the request
    with one space between them. *)
Theorem one_entry_fields_in_order log config next skipper w w1 err :
  config_Skipper config = Some skipper ->
  skipper w = (false, w1) ->
  outcome (next w1) = Returned err ->
  let r := ZapLoggerWithConfig log config next w in
  let w3 := after_next err (world (next w1)) in
  let req := echo.Context_Request w3 in
  exists entry,
    entries (trace r) = [entry]
    /\ zap.key <$> zap.fields entry =
         ["remote_ip"; "latency"; "host"; "request"; "status"; "size";
          "user_agent"; "request_id"]
    /\ zap.fields entry !! 3%nat =
         Some (zap.String "request"
                 (http.Method req +:+ " " +:+ http.RequestURI req)).
Proof.
  intros Hskipper Hanswer Hnext r w3 req.
  destruct (run_logged log _ next skipper w w1 err Hskipper Hanswer Hnext)
    as (entry & Hrun & _ & _ & _ & Hfields).
  fold w3 in Hrun, Hfields. fold req in Hfields.
  exists entry. subst r. rewrite Hrun, Hfields.
  split; [by destruct err|]. done.
Qed.

(** C7.  For a request that is not skipped and whose response status is 400
    or more, the entry is emitted by a child of the logger to which the
    error [next] returned is attached with [zap.Error], a nil error
    included.  Below 400 the entry is emitted by the logger itself, even when
    [next] returned an error.  In both cases no field passed with the message
    is an error field. *)
Theorem error_field_from_400 log config next skipper w w1 err :
  config_Skipper config = Some skipper ->
  skipper w = (false, w1) ->
  outcome (next w1) = Returned err ->
  let r := ZapLoggerWithConfig log config next w in
  let w3 := after_next err (world (next w1)) in
  let n := echo.Status (echo.Context_Response w3) in
  exists entry,
    entries (trace r) = [entry]
    /\ (n >= 400 ->
        zap.logger entry = zap.With log [zap.Error err]
        /\ zap.context (zap.logger entry) =
             zap.context log ++ [zap.Error err])
    /\ (n < 400 -> zap.logger entry = log)
    /\ Forall (fun f => zap.key f <> "error") (zap.fields entry).
Proof.
  intros Hskipper Hanswer Hnext r w3 n.
  destruct (run_logged log _ next skipper w w1 err Hskipper Hanswer Hnext)
    as (entry & Hrun & Hlogger & _ & _ & Hfields).
  fold w3 in Hrun, Hlogger. fold n in Hlogger.
  exists entry. subst r. rewrite Hrun, Hlogger, Hfields.
  split; [by destruct err|].
  split; [intros; case_decide; [done | lia]|].
  split; [intros; case_decide; [lia | done]|].
  by repeat constructor.
Qed.

(** C8.  For a request that is not skipped, the message of the entry is the
    base message of the status followed by ": ", the method, a space and the
    URI of the request when [IncludeRequestLogMessage] is true, and the base
    message alone when it is false. *)
Theorem message_with_summary log config next skipper w w1 err :
  config_Skipper config = Some skipper ->
  skipper w = (false, w1) ->
  outcome (next w1) = Returned err ->
  let r := ZapLoggerWithConfig log config next w in
  let w3 := after_next err (world (next w1)) in
  let req := echo.Context_Request w3 in
  let base := (classification (echo.Status (echo.Context_Response w3))).2 in
  exists entry,
    entries (trace r) = [entry]
    /\ (IncludeRequestLogMessage config = true ->
        zap.message entry =
          base +:+ ": " +:+ http.Method req +:+ " " +:+ http.RequestURI req)
    /\ (IncludeRequestLogMessage config = false ->
        zap.message entry = base).
Proof.
  intros Hskipper Hanswer Hnext r w3 req base.
  destruct (run_logged log _ next skipper w w1 err Hskipper Hanswer Hnext)
    as (entry & Hrun & _ & _ & Hmessage & _).
  fold w3 in Hrun, Hmessage. fold req base in Hmessage.
  exists entry. subst r. rewrite Hrun, Hmessage.
  split; [by destruct err|].
  split; intros ->; [done | apply append_empty_r].
Qed.

(** C9.  [DefaultSkipper] answers false for every context, and leaves it as
    it is; [DefaultZapLoggerConfig] has [DefaultSkipper] for skipper and
    [IncludeRequestLogMessage] false; for every logger, [ZapLogger log] is
    [ZapLoggerWithConfig log DefaultZapLoggerConfig], so the handlers they
    produce run alike on every [next] and every request. *)
Theorem default_config_and_ZapLogger :
  (forall w, DefaultSkipper w = (false, w))
  /\ config_Skipper (@DefaultZapLoggerConfig W) = Some DefaultSkipper
  /\ IncludeRequestLogMessage (@DefaultZapLoggerConfig W) = false
  /\ (forall log, ZapLogger log = ZapLoggerWithConfig log DefaultZapLoggerConfig)
  /\ (forall log next w,
        ZapLogger log next w =
        ZapLoggerWithConfig log DefaultZapLoggerConfig next w).
Proof. by repeat split. Qed.

(** C10.  A configuration whose [Skipper] is nil runs as the same
    configuration with [DefaultSkipper]: the replacement is made when the
    middleware is applied to [next], before any request.  Hence no request
    is skipped, and the handler panics only if [next] does: the call of the
    skip predicate is never a call of a nil function. *)
Theorem nil_Skipper_is_DefaultSkipper log config next :
  config_Skipper config = None ->
  ZapLoggerWithConfig log config next =
    ZapLoggerWithConfig log
      {| config_Skipper := Some DefaultSkipper;
         IncludeRequestLogMessage := IncludeRequestLogMessage config |}
      next
  /\ forall w,
      let r := ZapLoggerWithConfig log config next w in
      head (trace r) = Some (EvSkipper false)
      /\ (forall reason,
            outcome r = Panicked reason ->
            outcome (next w) = Panicked reason)
      /\ (forall err,
            outcome (next w) = Returned err ->
            outcome r = Returned None
            /\ length (entries (trace r)) = 1%nat).
Proof.
  intros Hnil. rewrite nil_Skipper_defaults, Hnil. cbn [default].
  split; [done|]. intros w.
  set (config' := Build_ZapLoggerConfig W (Some DefaultSkipper) _).
  assert (config_Skipper config' = Some DefaultSkipper) as Hskipper by done.
  assert (DefaultSkipper w = (false, w)) as Hanswer by done.
  destruct (outcome (next w)) as [err|reason] eqn:Hnext.
  - destruct (run_logged log config' next DefaultSkipper w w err
                Hskipper Hanswer Hnext) as (entry & -> & _).
    split; [done|]. split; [done|].
    intros err' [= <-]. by destruct err.
  - rewrite (run_panicked log config' next DefaultSkipper w w false reason
               Hskipper Hanswer Hnext).
    by repeat split.
Qed.

End Contract.

(** * The contract at work *)

(** C1 before its amendment, a counterexample: under the default
    configuration, a handler that returns an error is decorated into one that
    returns nil; and the error of a skipped request is returned without
    being handed to [c.Error]. *)
Lemma error_not_passed_through :
  outcome (answer 200 5 ∅ (Some boom) (arriving (get_foo []))) =
    Returned (Some boom)
  /\ outcome (ZapLoggerWithConfig root_logger DefaultZapLoggerConfig
                (answer 200 5 ∅ (Some boom)) (arriving (get_foo []))) =
       Returned None
  /\ outcome (ZapLoggerWithConfig root_logger DefaultZapLoggerConfig
                (answer 200 5 ∅ (Some boom)) (arriving (get_foo []))) <>
     outcome (answer 200 5 ∅ (Some boom) (arriving (get_foo [])))
  /\ outcome (ZapLoggerWithConfig root_logger but_healthz
                (answer 503 0 ∅ (Some boom)) (arriving healthz)) =
       Returned (Some boom)
  /\ reported (trace (ZapLoggerWithConfig root_logger but_healthz
                        (answer 503 0 ∅ (Some boom)) (arriving healthz))) =
       [].
Proof. by vm_compute. Qed.

(** C6 before its amendment, a counterexample: a request that is not
    skipped and whose [next] panics.  The panic goes through the handler and
    no entry is emitted. *)
Lemma no_entry_unless_next_returns :
  skip_healthz (arriving (get_foo [])) = (false, arriving (get_foo []))
  /\ outcome (ZapLoggerWithConfig root_logger but_healthz crash
                (arriving (get_foo []))) =
       Panicked "runtime error: index out of range"
  /\ entries (trace (ZapLoggerWithConfig root_logger but_healthz crash
                       (arriving (get_foo [])))) = [].
Proof. by vm_compute. Qed.

Lemma error_reported_once_nil_returned_witness :
  skip_healthz (arriving (get_foo [])) = (false, arriving (get_foo []))
  /\ outcome (ZapLoggerWithConfig root_logger but_healthz
                (answer 200 5 ∅ (Some boom)) (arriving (get_foo []))) =
       Returned None
  /\ reported (trace (ZapLoggerWithConfig root_logger but_healthz
                        (answer 200 5 ∅ (Some boom))
                        (arriving (get_foo [])))) = [boom].
Proof.
  split; [reflexivity|].
  destruct (error_reported_once_nil_returned root_logger but_healthz
              (answer 200 5 ∅ (Some boom)) skip_healthz
              (arriving (get_foo [])) (arriving (get_foo [])) (Some boom)
              eq_refl eq_refl eq_refl) as (Hnil & Hsome & _).
  split; [exact Hnil | exact (proj1 (Hsome boom eq_refl))].
Defined.

Lemma skipped_is_pass_through_witness :
  skip_healthz (arriving healthz) = (true, arriving healthz)
  /\ outcome (ZapLoggerWithConfig root_logger but_healthz
                (answer 503 0 ∅ (Some boom)) (arriving healthz)) =
       Returned (Some boom)
  /\ trace (ZapLoggerWithConfig root_logger but_healthz
              (answer 503 0 ∅ (Some boom)) (arriving healthz)) =
       [EvSkipper true; EvNext [] (Returned (Some boom))].
Proof.
  split; [reflexivity|].
  destruct (skipped_is_pass_through root_logger but_healthz
              (answer 503 0 ∅ (Some boom)) skip_healthz
              (arriving healthz) (arriving healthz) eq_refl eq_refl)
    as (Hresult & _ & Htrace & _).
  split; [exact Hresult | exact Htrace].
Defined.

(** A handler that answers 404 without returning an error. *)
Lemma severity_by_status_witness :
  skip_healthz (arriving (get_foo [])) = (false, arriving (get_foo []))
  /\ exists entry,
      entries (trace (ZapLoggerWithConfig root_logger but_healthz
                        (answer 404 0 ∅ None) (arriving (get_foo [])))) =
        [entry]
      /\ zap.level entry = zap.WarnLevel
      /\ zap.message entry = "Client error".
Proof.
  split; [reflexivity|].
  destruct (severity_by_status root_logger but_healthz
              (answer 404 0 ∅ None) skip_healthz
              (arriving (get_foo [])) (arriving (get_foo [])) None
              eq_refl eq_refl eq_refl)
    as (entry & Hentries & _ & _ & _ & Hwarn & _).
  exists entry. split; [exact Hentries|].
  apply Hwarn. change (400 <= 404 <= 499). lia.
Defined.

(** The inbound header wins over the outbound one. *)
Lemma request_id_first_non_empty_witness :
  skip_healthz (arriving (get_foo ["abc"])) =
    (false, arriving (get_foo ["abc"]))
  /\ exists entry,
      entries (trace (ZapLoggerWithConfig root_logger but_healthz
                        (answer 200 5 {[ "X-Request-Id" := ["xyz"] ]} None)
                        (arriving (get_foo ["abc"])))) = [entry]
      /\ last (zap.fields entry) = Some (zap.String "request_id" "abc").
Proof.
  split; [reflexivity|].
  destruct (request_id_first_non_empty root_logger but_healthz
              (answer 200 5 {[ "X-Request-Id" := ["xyz"] ]} None)
              skip_healthz
              (arriving (get_foo ["abc"])) (arriving (get_foo ["abc"])) None
              eq_refl eq_refl eq_refl)
    as (entry & id & Hentries & Hlast & Hid & _).
  exists entry. split; [exact Hentries|].
  rewrite Hlast, Hid. reflexivity.
Defined.

Lemma one_entry_fields_in_order_witness :
  skip_healthz (arriving (get_foo [])) = (false, arriving (get_foo []))
  /\ exists entry,
      entries (trace (ZapLoggerWithConfig root_logger but_healthz
                        (answer 200 5 ∅ None) (arriving (get_foo [])))) =
        [entry]
      /\ zap.key <$> zap.fields entry =
           ["remote_ip"; "latency"; "host"; "request"; "status"; "size";
            "user_agent"; "request_id"]
      /\ zap.fields entry !! 3%nat = Some (zap.String "request" "GET /foo").
Proof.
  split; [reflexivity|].
  exact (one_entry_fields_in_order root_logger but_healthz
           (answer 200 5 ∅ None) skip_healthz
           (arriving (get_foo [])) (arriving (get_foo [])) None
           eq_refl eq_refl eq_refl).
Defined.

(** A 404 set by the handler, with no error returned: the nil error is
    attached all the same. *)
Lemma error_field_from_400_witness :
  skip_healthz (arriving (get_foo [])) = (false, arriving (get_foo []))
  /\ exists entry,
      entries (trace (ZapLoggerWithConfig root_logger but_healthz
                        (answer 404 0 ∅ None) (arriving (get_foo [])))) =
        [entry]
      /\ zap.context (zap.logger entry) = [zap.Error None].
Proof.
  split; [reflexivity|].
  destruct (error_field_from_400 root_logger but_healthz
              (answer 404 0 ∅ None) skip_healthz
              (arriving (get_foo [])) (arriving (get_foo [])) None
              eq_refl eq_refl eq_refl)
    as (entry & Hentries & Hfrom400 & _).
  exists entry. split; [exact Hentries|].
  apply Hfrom400. change (404 >= 400). lia.
Defined.

(** GET /foo answered 200, with the summary in the message. *)
Lemma message_with_summary_witness :
  skip_healthz (arriving (get_foo [])) = (false, arriving (get_foo []))
  /\ exists entry,
      entries (trace (ZapLoggerWithConfig root_logger but_healthz_summary
                        (answer 200 5 ∅ None) (arriving (get_foo [])))) =
        [entry]
      /\ zap.message entry = "Success: GET /foo".
Proof.
  split; [reflexivity|].
  destruct (message_with_summary root_logger but_healthz_summary
              (answer 200 5 ∅ None) skip_healthz
              (arriving (get_foo [])) (arriving (get_foo [])) None
              eq_refl eq_refl eq_refl)
    as (entry & Hentries & Hsummary & _).
  exists entry. split; [exact Hentries | exact (Hsummary eq_refl)].
Defined.

(** A health check goes through a configuration with a nil skipper like any
    other request. *)
Lemma nil_Skipper_is_DefaultSkipper_witness :
  config_Skipper nil_skipper = None
  /\ outcome (ZapLoggerWithConfig root_logger nil_skipper
                (answer 200 2 ∅ None) (arriving healthz)) = Returned None
  /\ length (entries (trace (ZapLoggerWithConfig root_logger nil_skipper
                               (answer 200 2 ∅ None) (arriving healthz)))) =
       1%nat.
Proof.
  split; [reflexivity|].
  destruct (nil_Skipper_is_DefaultSkipper root_logger nil_skipper
              (answer 200 2 ∅ None) eq_refl) as [_ Hrun].
  destruct (Hrun (arriving healthz)) as (_ & _ & Hreturned).
  exact (Hreturned None eq_refl).
Defined.

(** ** The examples of the specification *)

(** No inbound header, an outbound one set by the handler. *)
Example request_id_from_response :
  (fun entry => last (zap.fields entry)) <$>
    entries (trace (ZapLoggerWithConfig root_logger but_healthz
                      (answer 200 5 {[ "X-Request-Id" := ["xyz"] ]} None)
                      (arriving (get_foo [])))) =
  [Some (zap.String "request_id" "xyz")].
Proof. by vm_compute. Qed.

(** Neither header. *)
Example request_id_empty :
  (fun entry => last (zap.fields entry)) <$>
    entries (trace (ZapLoggerWithConfig root_logger but_healthz
                      (answer 200 5 ∅ None) (arriving (get_foo [])))) =
  [Some (zap.String "request_id" "")].
Proof. by vm_compute. Qed.

(** 200, 301, 404 and 500, each with the fields attached to the logger. *)
Example status_examples :
  (fun status =>
     (fun entry =>
        (zap.level entry, zap.message entry,
         zap.context (zap.logger entry))) <$>
       entries (trace (ZapLoggerWithConfig root_logger but_healthz
                         (answer status 0 ∅ None) (arriving (get_foo [])))))
    <$> [200; 301; 404; 500] =
  [ [(zap.InfoLevel, "Success", [])];
    [(zap.InfoLevel, "Redirection", [])];
    [(zap.WarnLevel, "Client error", [zap.Error None])];
    [(zap.ErrorLevel, "Server error", [zap.Error None])] ].
Proof. by vm_compute. Qed.

(** An error returned with the status still at 200: the HTTP error handler of
    [PlainWorld] answers 500 before the entry is built. *)
Example error_then_status :
  (fun entry =>
     (zap.level entry, zap.message entry, zap.context (zap.logger entry))) <$>
    entries (trace (ZapLoggerWithConfig root_logger but_healthz_summary
                      (answer 200 0 ∅ (Some boom)) (arriving (get_foo [])))) =
  [(zap.ErrorLevel, "Server error: GET /foo", [zap.Error (Some boom)])].
Proof. by vm_compute. Qed.

(** The middleware applied twice: one entry per layer, the inner one inside
    the call of [next] of the outer one. *)
Example wrapped_twice :
  let r := ZapLogger root_logger
             (ZapLogger root_logger (answer 200 5 ∅ None))
             (arriving (get_foo ["abc"])) in
  length (entries (trace r)) = 1%nat
  /\ (fun inner => length (entries inner)) <$>
       omap (fun ev => match ev with
                       | EvNext inner _ => Some inner
                       | _ => None
                       end) (trace r) = [1%nat].
Proof. by vm_compute. Qed.

(** * Further properties of the handler *)

Section Further.

Context {W : Type} `{!echo.Context W} `{!time.Clock W}.
Context `{!time.DurationMethods}.

Implicit Types (log : zap.Logger) (config : ZapLoggerConfig W).
Implicit Types (next : HandlerFunc W) (skipper : Skipper W).
Implicit Types (w : W) (err : error).

(** X1.  The calls of a request that is not skipped, in order: the skip
    predicate, [time.Now], [next], [c.Error] when [next] returned an error,
    [c.Request], [c.Response], [c.RealIP], [time.Since] and the call of the
    logger, which is the last one.  So the HTTP error handler has run before
    anything is read for the entry. *)
Theorem logged_call_order log config next skipper w w1 err :
  config_Skipper config = Some skipper ->
  skipper w = (false, w1) ->
  outcome (next w1) = Returned err ->
  let r := ZapLoggerWithConfig log config next w in
  let w3 := after_next err (world (next w1)) in
  exists entry,
    trace r =
      [EvSkipper false; EvNow (time.Now w1);
       EvNext (trace (next w1)) (Returned err)]
      ++ (EvError <$> option_list err)
      ++ [EvRequest; EvResponse; EvRealIP;
          EvSince (time.Now w1) (time.Sub (time.Now w3) (time.Now w1));
          EvLog entry].
Proof.
  intros Hskipper Hanswer Hnext r w3.
  destruct (run_logged log _ next skipper w w1 err Hskipper Hanswer Hnext)
    as (entry & Hrun & _).
  exists entry. subst r. rewrite Hrun. by destruct err.
Qed.

(** X2.  For a request that is not skipped and whose [next] returns, the
    clock is read exactly twice: at the state the skip predicate left, and
    after [c.Error].  The latency field is the rendering of the time between
    the two, so it covers [next] and the HTTP error handler, and not the
    skip predicate. *)
Theorem latency_from_skipper_to_error_handler
    log config next skipper w w1 err :
  config_Skipper config = Some skipper ->
  skipper w = (false, w1) ->
  outcome (next w1) = Returned err ->
  let r := ZapLoggerWithConfig log config next w in
  let w3 := after_next err (world (next w1)) in
  let latency := time.Sub (time.Now w3) (time.Now w1) in
  clock_reads (trace r) = [EvNow (time.Now w1); EvSince (time.Now w1) latency]
  /\ exists entry,
      entries (trace r) = [entry]
      /\ zap.fields entry !! 1%nat =
           Some (zap.String "latency" (time.Duration_String latency)).
Proof.
  intros Hskipper Hanswer Hnext r w3 latency.
  destruct (run_logged log _ next skipper w w1 err Hskipper Hanswer Hnext)
    as (entry & Hrun & _ & _ & _ & Hfields).
  subst r. rewrite Hrun. split; [by destruct err|].
  exists entry. rewrite Hfields. split; [by destruct err | done].
Qed.

(** X3.  The other fields of the entry are read from the state [next] and
    [c.Error] left: remote_ip is [c.RealIP()], host the [Host] of the
    request, status the status of the response as a [zap.Int], size its size
    as a [zap.Int64], and user_agent the first value of the [User-Agent]
    header of the request, the empty string when the request has none. *)
Theorem fields_read_after_next log config next skipper w w1 err :
  config_Skipper config = Some skipper ->
  skipper w = (false, w1) ->
  outcome (next w1) = Returned err ->
  let r := ZapLoggerWithConfig log config next w in
  let w3 := after_next err (world (next w1)) in
  let req := echo.Context_Request w3 in
  let res := echo.Context_Response w3 in
  exists entry,
    entries (trace r) = [entry]
    /\ zap.fields entry !! 0%nat =
         Some (zap.String "remote_ip" (echo.Context_RealIP w3))
    /\ zap.fields entry !! 2%nat = Some (zap.String "host" (http.Host req))
    /\ zap.fields entry !! 4%nat = Some (zap.Int "status" (echo.Status res))
    /\ zap.fields entry !! 5%nat = Some (zap.Int64 "size" (echo.Size res))
    /\ zap.fields entry !! 6%nat =
         Some (zap.String "user_agent"
                 (http.Header_Get (http.Header req) "User-Agent"))
    /\ (http.Header req !! "User-Agent" = None ->
        zap.fields entry !! 6%nat = Some (zap.String "user_agent" "")).
Proof.
  intros Hskipper Hanswer Hnext r w3 req res.
  destruct (run_logged log _ next skipper w w1 err Hskipper Hanswer Hnext)
    as (entry & Hrun & _ & _ & _ & Hfields).
  fold w3 in Hfields. fold req res in Hfields.
  exists entry. subst r. rewrite Hrun, Hfields.
  split; [by destruct err|]. do 5 (split; [done|]).
  intros Hnone. cbn [lookup list_lookup].
  unfold http.UserAgent, http.Header_Get. by rewrite Hnone.
Qed.

(** X4.  The level of an entry is decided by the status the entry itself
    carries in its status field: error exactly from 500, warning exactly
    from 400 to 499, info exactly below 400. *)
Theorem level_by_status_field log config next skipper w w1 err :
  config_Skipper config = Some skipper ->
  skipper w = (false, w1) ->
  outcome (next w1) = Returned err ->
  let r := ZapLoggerWithConfig log config next w in
  exists entry n,
    entries (trace r) = [entry]
    /\ zap.fields entry !! 4%nat = Some (zap.Int "status" n)
    /\ (zap.level entry = zap.ErrorLevel <-> 500 <= n)
    /\ (zap.level entry = zap.WarnLevel <-> 400 <= n < 500)
    /\ (zap.level entry = zap.InfoLevel <-> n < 400).
Proof.
  intros Hskipper Hanswer Hnext r.
  destruct (run_logged log _ next skipper w w1 err Hskipper Hanswer Hnext)
    as (entry & Hrun & _ & Hlevel & _ & Hfields).
  exists entry. eexists. subst r. rewrite Hrun, Hfields, Hlevel.
  split; [by destruct err|]. split; [done|].
  unfold classification.
  repeat split; repeat case_decide; cbn [fst]; intros; done || lia.
Qed.

(** X6.  When [next] panics, the request leaves no trace in the log: the
    handler emits no entry, does not call [c.Error], reads nothing of the
    context and does not measure a latency; it ends in the state [next] was
    in when it panicked. *)
Theorem no_entry_when_next_panics log config next w reason :
  let skipper := default DefaultSkipper (config_Skipper config) in
  outcome (next (skipper w).2) = Panicked reason ->
  let r := ZapLoggerWithConfig log config next w in
  world r = world (next (skipper w).2)
  /\ next_calls (trace r) = [Panicked reason]
  /\ entries (trace r) = []
  /\ reported (trace r) = []
  /\ context_reads (trace r) = []
  /\ Forall (fun ev => forall start d, ev <> EvSince start d) (trace r).
Proof.
  intros skipper. rewrite nil_Skipper_defaults. fold skipper.
  set (config' := Build_ZapLoggerConfig W (Some skipper) _).
  assert (config_Skipper config' = Some skipper) as Hskipper by done.
  destruct (skipper w) as [skip w1] eqn:Hanswer. cbn [snd].
  intros Hnext.
  rewrite (run_panicked log config' next skipper w w1 skip reason
             Hskipper Hanswer Hnext).
  destruct skip; repeat split; by repeat constructor.
Qed.

(** X8.  [ZapLogger log] skips no request and puts no summary in the
    message: once [next] has returned, the handler has emitted one entry
    whose message is one of "Server error", "Client error", "Redirection"
    and "Success", and it returns nil. *)
Theorem ZapLogger_logs_every_request log next w err :
  outcome (next w) = Returned err ->
  let r := ZapLogger log next w in
  outcome r = Returned None
  /\ head (trace r) = Some (EvSkipper false)
  /\ exists entry,
      entries (trace r) = [entry]
      /\ zap.message entry ∈
           ["Server error"; "Client error"; "Redirection"; "Success"].
Proof.
  intros Hnext r. subst r. unfold ZapLogger.
  destruct (run_logged log DefaultZapLoggerConfig next DefaultSkipper w w err
              eq_refl eq_refl Hnext)
    as (entry & -> & _ & _ & Hmessage & _).
  do 2 (split; [done|]). exists entry. split; [by destruct err|].
  rewrite Hmessage. cbn [IncludeRequestLogMessage DefaultZapLoggerConfig].
  rewrite append_empty_r. unfold classification.
  repeat case_decide; cbn [snd]; rewrite !elem_of_cons; auto.
Qed.

(** X7.  The middleware around itself, for a request neither layer skips
    and whose [next] returns: each layer emits one entry, and the two
    entries carry the same status, level and request id.  Only the inner
    layer sees the error of [next]: it hands it to [c.Error] and attaches it
    to its logger from 400 on.  The outer layer is returned nil, so it does
    not call [c.Error] and what it attaches from 400 on is a nil error. *)
Theorem middleware_around_itself
    log1 log2 config1 config2 next skipper1 skipper2 w w1 w2 err :
  config_Skipper config2 = Some skipper2 ->
  skipper2 w = (false, w1) ->
  config_Skipper config1 = Some skipper1 ->
  skipper1 w1 = (false, w2) ->
  outcome (next w2) = Returned err ->
  let inner := ZapLoggerWithConfig log1 config1 next in
  let r := ZapLoggerWithConfig log2 config2 inner w in
  let w3 := after_next err (world (next w2)) in
  let n := echo.Status (echo.Context_Response w3) in
  outcome r = Returned None
  /\ world r = w3
  /\ next_calls (trace r) = [Returned None]
  /\ reported (trace r) = []
  /\ reported (trace (inner w1)) = option_list err
  /\ exists entry1 entry2,
      entries (trace (inner w1)) = [entry1]
      /\ entries (trace r) = [entry2]
      /\ zap.level entry2 = zap.level entry1
      /\ zap.fields entry2 !! 4%nat = zap.fields entry1 !! 4%nat
      /\ last (zap.fields entry2) = last (zap.fields entry1)
      /\ (n >= 400 ->
          zap.logger entry1 = zap.With log1 [zap.Error err]
          /\ zap.logger entry2 = zap.With log2 [zap.Error None])
      /\ (n < 400 -> zap.logger entry1 = log1 /\ zap.logger entry2 = log2).
Proof.
  intros Hskipper2 Hanswer2 Hskipper1 Hanswer1 Hnext inner r w3 n.
  destruct (run_logged log1 config1 next skipper1 w1 w2 err
              Hskipper1 Hanswer1 Hnext)
    as (entry1 & Hinner & Hlogger1 & Hlevel1 & _ & Hfields1).
  fold inner w3 in Hinner. fold w3 in Hlogger1, Hlevel1, Hfields1.
  fold n in Hlogger1, Hlevel1.
  assert (outcome (inner w1) = Returned None) as Hreturned
    by by rewrite Hinner.
  destruct (run_logged log2 config2 inner skipper2 w w1 None
              Hskipper2 Hanswer2 Hreturned)
    as (entry2 & Hr & Hlogger2 & Hlevel2 & _ & Hfields2).
  fold r in Hr. rewrite Hinner in Hr, Hlogger2, Hlevel2, Hfields2.
  cbn [world trace after_next] in Hr, Hlogger2, Hlevel2, Hfields2.
  fold n in Hlogger2, Hlevel2.
  rewrite Hr, Hinner. cbn [outcome world trace].
  do 4 (split; [done|]). split; [by destruct err|].
  exists entry1, entry2.
  rewrite Hlevel1, Hlevel2, Hfields1, Hfields2, Hlogger1, Hlogger2.
  split; [by destruct err|]. do 4 (split; [done|]).
  split; intros; case_decide; done || lia.
Qed.

(** X9.  [IncludeRequestLogMessage] changes the message of the entry and
    nothing else: with the flag set either way the handler ends alike, in
    the same state, after the same calls of [next] and of [c.Error], and its
    entries have the same logger, level and fields. *)
Theorem summary_flag_changes_message_only log config next w flag :
  let config' :=
    {| config_Skipper := config_Skipper config;
       IncludeRequestLogMessage := flag |} in
  let r := ZapLoggerWithConfig log config next w in
  let r' := ZapLoggerWithConfig log config' next w in
  outcome r' = outcome r
  /\ world r' = world r
  /\ next_calls (trace r') = next_calls (trace r)
  /\ reported (trace r') = reported (trace r)
  /\ (fun e => (zap.logger e, zap.level e, zap.fields e)) <$>
       entries (trace r') =
     (fun e => (zap.logger e, zap.level e, zap.fields e)) <$>
       entries (trace r).
Proof.
  intros config' r r'. subst r r'.
  rewrite (nil_Skipper_defaults log config), (nil_Skipper_defaults log config').
  cbn [config_Skipper IncludeRequestLogMessage config'].
  set (skipper := default DefaultSkipper (config_Skipper config)).
  set (c1 := Build_ZapLoggerConfig W (Some skipper)
               (IncludeRequestLogMessage config)).
  set (c2 := Build_ZapLoggerConfig W (Some skipper) flag).
  assert (config_Skipper c1 = Some skipper) as Hskipper1 by done.
  assert (config_Skipper c2 = Some skipper) as Hskipper2 by done.
  destruct (skipper w) as [skip w1] eqn:Hanswer.
  destruct (outcome (next w1)) as [err|reason] eqn:Hnext.
  - destruct skip.
    + by rewrite (run_skipped log c1 next skipper w w1 Hskipper1 Hanswer),
        (run_skipped log c2 next skipper w w1 Hskipper2 Hanswer).
    + destruct (run_logged log c1 next skipper w w1 err
                  Hskipper1 Hanswer Hnext)
        as (entry1 & -> & Hlogger1 & Hlevel1 & _ & Hfields1).
      destruct (run_logged log c2 next skipper w w1 err
                  Hskipper2 Hanswer Hnext)
        as (entry2 & -> & Hlogger2 & Hlevel2 & _ & Hfields2).
      do 2 (split; [done|]).
      destruct err; cbn; by rewrite Hlogger1, Hlogger2, Hlevel1, Hlevel2,
        Hfields1, Hfields2.
  - by rewrite (run_panicked log c1 next skipper w w1 skip reason
                  Hskipper1 Hanswer Hnext),
       (run_panicked log c2 next skipper w w1 skip reason
                  Hskipper2 Hanswer Hnext).
Qed.

End Further.

(** ** The further properties at work *)

(** An error answered 500 by the HTTP error handler. *)
Lemma logged_call_order_witness :
  skip_healthz (arriving (get_foo [])) = (false, arriving (get_foo []))
  /\ exists entry,
      trace (ZapLoggerWithConfig root_logger but_healthz
               (answer 200 0 ∅ (Some boom)) (arriving (get_foo []))) =
        [EvSkipper false; EvNow 1000; EvNext [] (Returned (Some boom));
         EvError boom; EvRequest; EvResponse; EvRealIP; EvSince 1000 290;
         EvLog entry].
Proof.
  split; [reflexivity|].
  exact (logged_call_order root_logger but_healthz
           (answer 200 0 ∅ (Some boom)) skip_healthz
           (arriving (get_foo [])) (arriving (get_foo [])) (Some boom)
           eq_refl eq_refl eq_refl).
Defined.

(** 250ns in the handler and 40ns in the HTTP error handler. *)
Lemma latency_from_skipper_to_error_handler_witness :
  skip_healthz (arriving (get_foo [])) = (false, arriving (get_foo []))
  /\ exists entry,
      entries (trace (ZapLoggerWithConfig root_logger but_healthz
                        (answer 200 0 ∅ (Some boom))
                        (arriving (get_foo [])))) = [entry]
      /\ zap.fields entry !! 1%nat = Some (zap.String "latency" "290ns").
Proof.
  split; [reflexivity|].
  exact (proj2 (latency_from_skipper_to_error_handler root_logger but_healthz
                  (answer 200 0 ∅ (Some boom)) skip_healthz
                  (arriving (get_foo [])) (arriving (get_foo []))
                  (Some boom) eq_refl eq_refl eq_refl)).
Defined.

Lemma fields_read_after_next_witness :
  skip_healthz (arriving (get_foo [])) = (false, arriving (get_foo []))
  /\ exists entry,
      entries (trace (ZapLoggerWithConfig root_logger but_healthz
                        (answer 201 17 ∅ None) (arriving (get_foo [])))) =
        [entry]
      /\ zap.fields entry !! 4%nat = Some (zap.Int "status" 201)
      /\ zap.fields entry !! 5%nat = Some (zap.Int64 "size" 17)
      /\ zap.fields entry !! 6%nat =
           Some (zap.String "user_agent" "curl/8.5.0").
Proof.
  split; [reflexivity|].
  destruct (fields_read_after_next root_logger but_healthz
              (answer 201 17 ∅ None) skip_healthz
              (arriving (get_foo [])) (arriving (get_foo [])) None
              eq_refl eq_refl eq_refl)
    as (entry & Hentries & _ & _ & Hstatus & Hsize & Hagent & _).
  exists entry. repeat split; [exact Hentries | exact Hstatus | exact Hsize |].
  rewrite Hagent. reflexivity.
Defined.

Lemma level_by_status_field_witness :
  skip_healthz (arriving (get_foo [])) = (false, arriving (get_foo []))
  /\ exists entry,
      entries (trace (ZapLoggerWithConfig root_logger but_healthz
                        (answer 503 0 ∅ None) (arriving (get_foo [])))) =
        [entry]
      /\ zap.fields entry !! 4%nat = Some (zap.Int "status" 503)
      /\ zap.level entry = zap.ErrorLevel.
Proof.
  split; [reflexivity|].
  destruct (level_by_status_field root_logger but_healthz
              (answer 503 0 ∅ None) skip_healthz
              (arriving (get_foo [])) (arriving (get_foo [])) None
              eq_refl eq_refl eq_refl)
    as (entry & n & Hentries & Hstatus & Herror & _).
  assert (n = 503) as ->.
  { pose proof Hentries as Hrun. vm_compute in Hrun.
    injection Hrun as <-. vm_compute in Hstatus. congruence. }
  exists entry. repeat split; [exact Hentries | exact Hstatus |].
  apply Herror. lia.
Defined.

Lemma no_entry_when_next_panics_witness :
  outcome (crash (arriving (get_foo []))) =
    Panicked "runtime error: index out of range"
  /\ entries (trace (ZapLoggerWithConfig root_logger but_healthz crash
                       (arriving (get_foo [])))) = []
  /\ reported (trace (ZapLoggerWithConfig root_logger but_healthz crash
                        (arriving (get_foo [])))) = [].
Proof.
  split; [reflexivity|].
  destruct (no_entry_when_next_panics root_logger but_healthz crash
              (arriving (get_foo [])) "runtime error: index out of range"
              eq_refl)
    as (_ & _ & Hentries & Hreported & _).
  split; [exact Hentries | exact Hreported].
Defined.

Lemma ZapLogger_logs_every_request_witness :
  outcome (answer 200 2 ∅ None (arriving healthz)) = Returned None
  /\ outcome (ZapLogger root_logger (answer 200 2 ∅ None)
                (arriving healthz)) = Returned None
  /\ head (trace (ZapLogger root_logger (answer 200 2 ∅ None)
                    (arriving healthz))) = Some (EvSkipper false).
Proof.
  split; [reflexivity|].
  destruct (ZapLogger_logs_every_request root_logger (answer 200 2 ∅ None)
              (arriving healthz) None eq_refl)
    as (Hnil & Hhead & _).
  split; [exact Hnil | exact Hhead].
Defined.

(** Two layers around a handler that returns an error: the error handler is
    given the error once, by the inner layer. *)
Lemma middleware_around_itself_witness :
  skip_healthz (arriving (get_foo ["abc"])) =
    (false, arriving (get_foo ["abc"]))
  /\ outcome (ZapLoggerWithConfig root_logger but_healthz_summary
                (ZapLoggerWithConfig root_logger but_healthz
                   (answer 200 0 ∅ (Some boom)))
                (arriving (get_foo ["abc"]))) = Returned None
  /\ reported (trace (ZapLoggerWithConfig root_logger but_healthz_summary
                        (ZapLoggerWithConfig root_logger but_healthz
                           (answer 200 0 ∅ (Some boom)))
                        (arriving (get_foo ["abc"])))) = []
  /\ reported (trace (ZapLoggerWithConfig root_logger but_healthz
                        (answer 200 0 ∅ (Some boom))
                        (arriving (get_foo ["abc"])))) = [boom].
Proof.
  split; [reflexivity|].
  destruct (middleware_around_itself root_logger root_logger
              but_healthz but_healthz_summary
              (answer 200 0 ∅ (Some boom)) skip_healthz skip_healthz
              (arriving (get_foo ["abc"])) (arriving (get_foo ["abc"]))
              (arriving (get_foo ["abc"])) (Some boom)
              eq_refl eq_refl eq_refl eq_refl eq_refl)
    as (Hnil & _ & _ & Houter & Hinner & _).
  split; [exact Hnil | split; [exact Houter | exact Hinner]].
Defined.
